(** * Ghostcopy, Windows runner: power monitor and Flutter window

    A shallow embedding of [windows/runner/power_monitor.cpp] and
    [windows/runner/flutter_window.cpp].

    Both files are adapters: all they do is read a few fields, branch on
    message parameters and call into the operating system and the Flutter
    engine.  The embedding therefore keeps

    - the objects' fields as records ([std::unique_ptr] fields as [option]),
    - every call that leaves the two files as an entry of an effect trace,
      in program order,
    - the answers of the outside world (base class, engine) as a [Host]
      record that the methods consult,
    - dereferencing a null pointer as a fault that stops the method. *)

From Stdlib Require Import ZArith List String Bool Lia.
Import ListNotations.

Local Open Scope string_scope.
Local Open Scope list_scope.
Local Open Scope Z_scope.

(** ** Constants and scalar types of the Windows SDK *)

Module Win32.

(** [UINT_PTR], [UINT], [LONG_PTR], handles and [LONG] are machine integers;
    they are carried as [Z]. *)
Definition WPARAM := Z.
Definition LPARAM := Z.
Definition LRESULT := Z.
Definition UINT := Z.
Definition HWND := Z.
Definition LONG := Z.
Definition DWORD := Z.

(** winuser.h *)
Definition WM_FONTCHANGE : UINT := 0x001D.
Definition WM_POWERBROADCAST : UINT := 0x0218.
Definition WM_WTSSESSION_CHANGE : UINT := 0x02B1.
Definition PBT_APMSUSPEND : WPARAM := 0x0004.
Definition PBT_APMRESUMESUSPEND : WPARAM := 0x0007.
Definition PBT_APMRESUMEAUTOMATIC : WPARAM := 0x0012.
Definition WTS_SESSION_LOCK : WPARAM := 0x7.
Definition WTS_SESSION_UNLOCK : WPARAM := 0x8.

(** wtsapi32.h *)
Definition NOTIFY_FOR_THIS_SESSION : DWORD := 0.

Record RECT : Type := mkRECT
  { left : LONG; top : LONG; right : LONG; bottom : LONG }.

(** [LONG] is a 32-bit two's complement integer. *)
Definition LONG_MIN : Z := - 2 ^ 31.
Definition LONG_MAX : Z := 2 ^ 31 - 1.

Definition in_LONG (z : Z) : Prop := LONG_MIN <= z <= LONG_MAX.

Definition wrap_LONG (z : Z) : LONG := (z + 2 ^ 31) mod 2 ^ 32 - 2 ^ 31.

(** [a - b] on two [LONG]s, as the 32-bit subtraction the compiler emits. *)
Definition LONG_sub (a b : LONG) : LONG := wrap_LONG (a - b).

End Win32.

(** ** The part of the Flutter embedding API the runner uses *)

Module Flutter.
Import Win32.

(** [flutter::EncodableValue]; the runner only ever passes null pointers
    to one, so a few of its alternatives are enough. *)
Inductive EncodableValue : Type :=
| EncodableNull
| EncodableBool (b : bool)
| EncodableInt (i : Z)
| EncodableString (s : string).

Inductive DartProject : Type :=
| MkDartProject (path : string).

Definition BinaryMessenger := Z.

Record FlutterEngine : Type := mkEngine { messenger : BinaryMessenger }.

Record FlutterView : Type := mkView { GetNativeWindow : HWND }.

Inductive MethodCodec : Type :=
| StandardMethodCodec.

(** [flutter::MethodChannel<EncodableValue>]: what its constructor stores. *)
Record MethodChannel : Type := mkChannel
  { channel_messenger : BinaryMessenger;
    channel_name : string;
    channel_codec : MethodCodec }.

Record MethodCall : Type := mkCall
  { method_name : string;
    arguments : option EncodableValue }.

(** The call a handler makes on its [flutter::MethodResult].
    [result->Success()] passes no value. *)
Inductive MethodReply : Type :=
| Success (value : option EncodableValue)
| Error (code message : string)
| NotImplemented.

Definition MethodCallHandler := MethodCall -> MethodReply.

(** A [flutter::MethodResult] object handed to the engine to receive the
    reply to an outbound call. The runner never makes one, so only its
    identity is kept. *)
Inductive MethodResult : Type :=
| MethodResultObject (id : Z).

(** [flutter::FlutterViewController]: the extents and project it was
    constructed with, and the two accessors that are null when the
    engine could not be set up. *)
Record FlutterViewController : Type := mkController
  { controller_width : Z;
    controller_height : Z;
    controller_project : DartProject;
    engine : option FlutterEngine;
    view : option FlutterView }.

End Flutter.

Import Win32 Flutter.

(** ** Effects and the run monad *)

(** The closures the runner hands to the engine that capture [this];
    [invoke_callback] below gives each one its body. *)
Inductive FrameCallback : Type :=
| ShowWhenControllerAlive.   (* flutter_window.cpp, lambda in OnCreate *)

(** One entry per call that leaves the two source files. *)
Inductive Effect : Type :=
(* power_monitor.cpp *)
| SetMethodCallHandler (ch : MethodChannel) (handler : MethodCallHandler)
| InvokeMethod (ch : MethodChannel) (method : string)
               (args : option EncodableValue)
               (result : option MethodResult)
(* flutter_window.cpp *)
| Win32Window_OnCreate
| Win32Window_OnDestroy
| Win32Window_MessageHandler (hwnd : HWND) (message : UINT)
                             (wparam : WPARAM) (lparam : LPARAM)
| Win32Window_Show
| NewFlutterViewController (width height : Z) (project : DartProject)
| RegisterPlugins (registry : option FlutterEngine)
| SetChildContent (content : HWND)
| WTSRegisterSessionNotification (hwnd : HWND) (flags : DWORD)
| WTSUnRegisterSessionNotification (hwnd : HWND)
| SetNextFrameCallback (e : FlutterEngine) (cb : FrameCallback)
| ForceRedraw
| HandleTopLevelWindowProc (hwnd : HWND) (message : UINT)
                           (wparam : WPARAM) (lparam : LPARAM)
| ReloadSystemFonts (e : FlutterEngine).

Definition Trace := list Effect.

Inductive Result (A : Type) : Type :=
| Ok (a : A)
| NullDereference.

Arguments Ok {A} a.
Arguments NullDereference {A}.

(** A method of an object with fields [S]: from the fields before the call
    to the effects performed and either a fault or the returned value with
    the fields after the call. *)
Definition Run (S A : Type) : Type := S -> Trace * Result (A * S).

Definition ret {S A} (a : A) : Run S A :=
  fun s => ([], Ok (a, s)).

Definition bind {S A B} (m : Run S A) (k : A -> Run S B) : Run S B :=
  fun s =>
    match m s with
    | (t, Ok (a, s')) => let '(t', r) := k a s' in (t ++ t', r)
    | (t, NullDereference) => (t, NullDereference)
    end.

Definition emit {S} (e : Effect) : Run S unit :=
  fun s => ([e], Ok (tt, s)).

Definition get {S} : Run S S :=
  fun s => ([], Ok (s, s)).

Definition put {S} (s : S) : Run S unit :=
  fun _ => ([], Ok (tt, s)).

(** [p->...] on a pointer that may be null. *)
Definition deref {S A} (p : option A) : Run S A :=
  fun s => match p with
           | Some a => ([], Ok (a, s))
           | None => ([], NullDereference)
           end.

(** Run a method of a member object [m] of type [T] held in the object with
    fields [S], writing the member back with [store]. *)
Definition on_member {S T A} (m : T) (store : T -> S -> S) (r : Run T A)
  : Run S A :=
  fun s =>
    match r m with
    | (t, Ok (a, m')) => (t, Ok (a, store m' s))
    | (t, NullDereference) => (t, NullDereference)
    end.

Declare Scope run_scope.
Delimit Scope run_scope with run.
Notation "x <- m ;; k" := (bind m (fun x => k))
  (at level 61, m at next level, right associativity) : run_scope.
Notation "m ;; k" := (bind m (fun _ => k))
  (at level 61, right associativity) : run_scope.
Local Open Scope run_scope.

Definition trace_of {S A} (o : Trace * Result (A * S)) : Trace := fst o.

Definition value_of {S A} (o : Trace * Result (A * S)) : option A :=
  match snd o with
  | Ok (a, _) => Some a
  | NullDereference => None
  end.

Definition state_of {S A} (o : Trace * Result (A * S)) : option S :=
  match snd o with
  | Ok (_, s) => Some s
  | NullDereference => None
  end.

(** ** power_monitor.cpp *)

Record PowerMonitor : Type := mkPowerMonitor
  { channel_ : option MethodChannel }.

Definition kPowerChannel : string := "com.ghostcopy.app/power".

(** The lambda given to [SetMethodCallHandler]. *)
Definition method_call_handler : MethodCallHandler :=
  fun call =>
    if String.eqb (method_name call) "startListening"
    then Success None
    else NotImplemented.

(** [PowerMonitor::PowerMonitor(engine)], run on the default-initialised
    object. *)
Definition PowerMonitor_ctor (engine : option FlutterEngine)
  : Run PowerMonitor unit :=
  e <- deref engine ;;
  put {| channel_ :=
           Some (mkChannel (messenger e) kPowerChannel StandardMethodCodec) |} ;;
  this <- get ;;
  ch <- deref (channel_ this) ;;
  emit (SetMethodCallHandler ch method_call_handler).

(** [std::make_unique<PowerMonitor>(engine)]. *)
Definition make_PowerMonitor {S} (engine : option FlutterEngine)
  : Run S PowerMonitor :=
  fun s =>
    match PowerMonitor_ctor engine {| channel_ := None |} with
    | (t, Ok (_, pm)) => (t, Ok (pm, s))
    | (t, NullDereference) => (t, NullDereference)
    end.

(** [channel_->InvokeMethod(event_name, nullptr)]; the third parameter of
    [MethodChannel::InvokeMethod], the result handler, defaults to null. *)
Definition SendEvent (event_name : string) : Run PowerMonitor unit :=
  this <- get ;;
  match channel_ this with
  | Some ch => emit (InvokeMethod ch event_name None None)
  | None => ret tt
  end.

Definition HandlePowerBroadcast (wparam : WPARAM) : Run PowerMonitor unit :=
  if wparam =? PBT_APMSUSPEND then SendEvent "systemSuspend"
  else if (wparam =? PBT_APMRESUMEAUTOMATIC) || (wparam =? PBT_APMRESUMESUSPEND)
  then SendEvent "systemResume"
  else ret tt.

Definition HandleSessionChange (wparam : WPARAM) : Run PowerMonitor unit :=
  if wparam =? WTS_SESSION_LOCK then SendEvent "sessionLock"
  else if wparam =? WTS_SESSION_UNLOCK then SendEvent "sessionUnlock"
  else ret tt.

(** ** flutter_window.cpp *)

(** What the collaborators outside the two files answer: the base class
    [Win32Window], and the engine behind [FlutterViewController]. *)
Record Host : Type := mkHost
  { base_OnCreate : bool;
    GetClientArea : RECT;
    GetHandle : HWND;
    engine_for : Z -> Z -> DartProject -> option FlutterEngine;
    view_for : Z -> Z -> DartProject -> option FlutterView;
    top_level_proc : HWND -> UINT -> WPARAM -> LPARAM -> option LRESULT;
    base_MessageHandler : HWND -> UINT -> WPARAM -> LPARAM -> LRESULT }.

Record FlutterWindow : Type := mkWindow
  { project_ : DartProject;
    flutter_controller_ : option FlutterViewController;
    power_monitor_ : option PowerMonitor }.

(** [FlutterWindow::FlutterWindow(project)]: both smart pointers start null. *)
Definition FlutterWindow_ctor (project : DartProject) : FlutterWindow :=
  {| project_ := project;
     flutter_controller_ := None;
     power_monitor_ := None |}.

Definition set_flutter_controller (c : option FlutterViewController)
  : Run FlutterWindow unit :=
  fun this => ([], Ok (tt, {| project_ := project_ this;
                              flutter_controller_ := c;
                              power_monitor_ := power_monitor_ this |})).

Definition set_power_monitor (pm : option PowerMonitor)
  : Run FlutterWindow unit :=
  fun this => ([], Ok (tt, {| project_ := project_ this;
                              flutter_controller_ := flutter_controller_ this;
                              power_monitor_ := pm |})).

(** [std::make_unique<flutter::FlutterViewController>(width, height, project)] *)
Definition make_FlutterViewController {S} (h : Host) (width height : Z)
    (project : DartProject) : Run S FlutterViewController :=
  emit (NewFlutterViewController width height project) ;;
  ret {| controller_width := width;
         controller_height := height;
         controller_project := project;
         engine := engine_for h width height project;
         view := view_for h width height project |}.

(** [flutter_controller_->engine()] and [flutter_controller_->view()]. *)
Definition controller_engine : Run FlutterWindow (option FlutterEngine) :=
  this <- get ;;
  c <- deref (flutter_controller_ this) ;;
  ret (engine c).

Definition controller_view : Run FlutterWindow (option FlutterView) :=
  this <- get ;;
  c <- deref (flutter_controller_ this) ;;
  ret (view c).

(** The body of a closure registered with the engine, run on the window
    as it is when the engine calls back. *)
Definition invoke_callback (cb : FrameCallback) : Run FlutterWindow unit :=
  match cb with
  | ShowWhenControllerAlive =>
      this <- get ;;
      match flutter_controller_ this with
      | Some _ => emit Win32Window_Show
      | None => ret tt
      end
  end.

Definition OnCreate (h : Host) : Run FlutterWindow bool :=
  emit Win32Window_OnCreate ;;
  if negb (base_OnCreate h) then ret false else
  let frame := GetClientArea h in
  this <- get ;;
  c <- make_FlutterViewController h
         (LONG_sub (right frame) (left frame))
         (LONG_sub (bottom frame) (top frame))
         (project_ this) ;;
  set_flutter_controller (Some c) ;;
  e <- controller_engine ;;
  match e with
  | None => ret false
  | Some _ =>
  v <- controller_view ;;
  match v with
  | None => ret false
  | Some _ =>
  e <- controller_engine ;;
  emit (RegisterPlugins e) ;;
  v <- controller_view ;;
  v <- deref v ;;
  emit (SetChildContent (GetNativeWindow v)) ;;
  e <- controller_engine ;;
  pm <- make_PowerMonitor e ;;
  set_power_monitor (Some pm) ;;
  emit (WTSRegisterSessionNotification (GetHandle h) NOTIFY_FOR_THIS_SESSION) ;;
  e <- controller_engine ;;
  e <- deref e ;;
  emit (SetNextFrameCallback e ShowWhenControllerAlive) ;;
  this <- get ;;
  _ <- deref (flutter_controller_ this) ;;
  emit ForceRedraw ;;
  ret true
  end
  end.

Definition OnDestroy (h : Host) : Run FlutterWindow unit :=
  emit (WTSUnRegisterSessionNotification (GetHandle h)) ;;
  this <- get ;;
  match power_monitor_ this with
  | Some _ => set_power_monitor None
  | None => ret tt
  end ;;
  this <- get ;;
  match flutter_controller_ this with
  | Some _ => set_flutter_controller None
  | None => ret tt
  end ;;
  emit Win32Window_OnDestroy.

(** [power_monitor_->m(...)] for a method [m] of [PowerMonitor]. *)
Definition on_power_monitor {A} (pm : PowerMonitor) (m : Run PowerMonitor A)
  : Run FlutterWindow A :=
  on_member pm
    (fun pm' this => {| project_ := project_ this;
                        flutter_controller_ := flutter_controller_ this;
                        power_monitor_ := Some pm' |})
    m.

Definition MessageHandler (h : Host) (hwnd : HWND) (message : UINT)
    (wparam : WPARAM) (lparam : LPARAM) : Run FlutterWindow LRESULT :=
  this <- get ;;
  result <- match flutter_controller_ this with
            | Some _ =>
                emit (HandleTopLevelWindowProc hwnd message wparam lparam) ;;
                ret (top_level_proc h hwnd message wparam lparam)
            | None => ret None
            end ;;
  match result with
  | Some r => ret r
  | None =>
      (if message =? WM_FONTCHANGE then
         e <- controller_engine ;;
         e <- deref e ;;
         emit (ReloadSystemFonts e)
       else if message =? WM_POWERBROADCAST then
         this <- get ;;
         match power_monitor_ this with
         | Some pm => on_power_monitor pm (HandlePowerBroadcast wparam)
         | None => ret tt
         end
       else if message =? WM_WTSSESSION_CHANGE then
         this <- get ;;
         match power_monitor_ this with
         | Some pm => on_power_monitor pm (HandleSessionChange wparam)
         | None => ret tt
         end
       else ret tt) ;;
      emit (Win32Window_MessageHandler hwnd message wparam lparam) ;;
      ret (base_MessageHandler h hwnd message wparam lparam)
  end.

(** ** Observations on traces *)

Definition is_Show (e : Effect) : bool :=
  match e with Win32Window_Show => true | _ => false end.

Definition is_RegisterPlugins (e : Effect) : bool :=
  match e with RegisterPlugins _ => true | _ => false end.

Definition is_SetMethodCallHandler (e : Effect) : bool :=
  match e with SetMethodCallHandler _ _ => true | _ => false end.

Definition is_SetNextFrameCallback (e : Effect) : bool :=
  match e with SetNextFrameCallback _ _ => true | _ => false end.

Definition is_NewFlutterViewController (e : Effect) : bool :=
  match e with NewFlutterViewController _ _ _ => true | _ => false end.

(** The notifications in a trace: channel identifier and method name of
    each [InvokeMethod], in order. *)
Fixpoint notifications (t : Trace) : list (string * string) :=
  match t with
  | [] => []
  | InvokeMethod ch name _ _ :: t' => (channel_name ch, name) :: notifications t'
  | _ :: t' => notifications t'
  end.

(** The controller that [OnCreate] constructs: sized by the client area,
    for the window's project, with whatever engine and view the host
    provides for these arguments. *)
Definition initial_controller (h : Host) (w : FlutterWindow)
  : FlutterViewController :=
  let frame := GetClientArea h in
  let width := LONG_sub (right frame) (left frame) in
  let height := LONG_sub (bottom frame) (top frame) in
  {| controller_width := width;
     controller_height := height;
     controller_project := project_ w;
     engine := engine_for h width height (project_ w);
     view := view_for h width height (project_ w) |}.

(** A sample host and window, used to run the methods on concrete input. *)
Definition sample_engine : FlutterEngine := {| messenger := 1 |}.
Definition sample_view : FlutterView := {| GetNativeWindow := 77 |}.

Definition sample_host : Host :=
  {| base_OnCreate := true;
     GetClientArea := mkRECT 0 0 1280 720;
     GetHandle := 42;
     engine_for := fun _ _ _ => Some sample_engine;
     view_for := fun _ _ _ => Some sample_view;
     top_level_proc := fun _ _ _ _ => None;
     base_MessageHandler := fun _ _ _ _ => 0 |}.

(** The same host with an engine that fails to start. *)
Definition failing_host : Host :=
  {| base_OnCreate := true;
     GetClientArea := mkRECT 0 0 1280 720;
     GetHandle := 42;
     engine_for := fun _ _ _ => None;
     view_for := fun _ _ _ => Some sample_view;
     top_level_proc := fun _ _ _ _ => None;
     base_MessageHandler := fun _ _ _ _ => 0 |}.

Definition sample_window : FlutterWindow :=
  FlutterWindow_ctor (MkDartProject "data").

Definition sample_monitor : PowerMonitor :=
  {| channel_ := Some (mkChannel 1 kPowerChannel StandardMethodCodec) |}.

Definition is_WTSRegisterSessionNotification (e : Effect) : bool :=
  match e with WTSRegisterSessionNotification _ _ => true | _ => false end.

(** A host whose base class refuses to create the window. *)
Definition base_failing_host : Host :=
  {| base_OnCreate := false;
     GetClientArea := mkRECT 0 0 1280 720;
     GetHandle := 42;
     engine_for := fun _ _ _ => Some sample_engine;
     view_for := fun _ _ _ => Some sample_view;
     top_level_proc := fun _ _ _ _ => None;
     base_MessageHandler := fun _ _ _ _ => 0 |}.

(** A host whose engine consumes every window message, answering 1. *)
Definition consuming_host : Host :=
  {| base_OnCreate := true;
     GetClientArea := mkRECT 0 0 1280 720;
     GetHandle := 42;
     engine_for := fun _ _ _ => Some sample_engine;
     view_for := fun _ _ _ => Some sample_view;
     top_level_proc := fun _ _ _ _ => Some 1;
     base_MessageHandler := fun _ _ _ _ => 0 |}.

(** The sample window as a successful [OnCreate] leaves it. *)
Definition created_window : FlutterWindow :=
  {| project_ := MkDartProject "data";
     flutter_controller_ :=
       Some {| controller_width := 1280;
               controller_height := 720;
               controller_project := MkDartProject "data";
               engine := Some sample_engine;
               view := Some sample_view |};
     power_monitor_ := Some sample_monitor |}.

(** The sample window as [OnDestroy] leaves it. *)
Definition destroyed_window : FlutterWindow :=
  {| project_ := MkDartProject "data";
     flutter_controller_ := None;
     power_monitor_ := None |}.

(** * Properties *)

(** ** The run monad *)

Lemma bind_ret_l {S A B} (a : A) (k : A -> Run S B) (s : S) :
  bind (ret a) k s = k a s.
Proof.
  unfold bind, ret. destruct (k a s) as [t r]. reflexivity.
Qed.

Lemma bind_get {S B} (k : S -> Run S B) (s : S) :
  bind get k s = k s s.
Proof.
  unfold bind, get. destruct (k s s) as [t r]. reflexivity.
Qed.

(** ** power_monitor.cpp *)

Section PowerMonitorFacts.

Variable pm : PowerMonitor.

Lemma SendEvent_present (ch : MethodChannel) (name : string) :
  channel_ pm = Some ch ->
  SendEvent name pm = ([InvokeMethod ch name None None], Ok (tt, pm)).
Proof.
  intros Hch. unfold SendEvent. rewrite bind_get, Hch. reflexivity.
Qed.

Lemma SendEvent_absent (name : string) :
  channel_ pm = None ->
  SendEvent name pm = ([], Ok (tt, pm)).
Proof.
  intros Hch. unfold SendEvent. rewrite bind_get, Hch. reflexivity.
Qed.

(** Whatever the channel, a send yields at most the one [InvokeMethod]
    and never touches the monitor. *)
Lemma SendEvent_cases (name : string) :
  SendEvent name pm =
    (match channel_ pm with
     | Some ch => [InvokeMethod ch name None None]
     | None => []
     end, Ok (tt, pm)).
Proof.
  destruct (channel_ pm) as [ch|] eqn:Hch.
  - now apply SendEvent_present.
  - now apply SendEvent_absent.
Qed.

End PowerMonitorFacts.

(** The constructor always leaves a channel with the fixed identifier and
    registers the handler on it. *)
Lemma make_PowerMonitor_eq {S} (e : FlutterEngine) (s : S) :
  make_PowerMonitor (Some e) s =
    (let ch := mkChannel (messenger e) kPowerChannel StandardMethodCodec in
     ([SetMethodCallHandler ch method_call_handler],
      Ok ({| channel_ := Some ch |}, s))).
Proof. reflexivity. Qed.

Lemma method_call_handler_startListening (call : MethodCall) :
  method_name call = "startListening" ->
  method_call_handler call = Success None.
Proof.
  intros H. unfold method_call_handler. rewrite H. reflexivity.
Qed.

Lemma method_call_handler_other (call : MethodCall) :
  method_name call <> "startListening" ->
  method_call_handler call = NotImplemented.
Proof.
  intros H. unfold method_call_handler.
  destruct (String.eqb_spec (method_name call) "startListening"); congruence.
Qed.

(** With the channel in place, each recognized event value makes its
    handler send the one notification that belongs to it. *)
Lemma recognized_events_with_channel (pm : PowerMonitor) (ch : MethodChannel) :
  channel_ pm = Some ch ->
  HandlePowerBroadcast PBT_APMSUSPEND pm
    = ([InvokeMethod ch "systemSuspend" None None], Ok (tt, pm)) /\
  HandlePowerBroadcast PBT_APMRESUMEAUTOMATIC pm
    = ([InvokeMethod ch "systemResume" None None], Ok (tt, pm)) /\
  HandlePowerBroadcast PBT_APMRESUMESUSPEND pm
    = ([InvokeMethod ch "systemResume" None None], Ok (tt, pm)) /\
  HandleSessionChange WTS_SESSION_LOCK pm
    = ([InvokeMethod ch "sessionLock" None None], Ok (tt, pm)) /\
  HandleSessionChange WTS_SESSION_UNLOCK pm
    = ([InvokeMethod ch "sessionUnlock" None None], Ok (tt, pm)).
Proof.
  intros Hch.
  change (HandlePowerBroadcast PBT_APMSUSPEND) with (SendEvent "systemSuspend").
  change (HandlePowerBroadcast PBT_APMRESUMEAUTOMATIC)
    with (SendEvent "systemResume").
  change (HandlePowerBroadcast PBT_APMRESUMESUSPEND)
    with (SendEvent "systemResume").
  change (HandleSessionChange WTS_SESSION_LOCK) with (SendEvent "sessionLock").
  change (HandleSessionChange WTS_SESSION_UNLOCK)
    with (SendEvent "sessionUnlock").
  repeat split; apply SendEvent_present; exact Hch.
Qed.

(** C1: on a monitor built by the constructor, each recognized event value
    makes its handler send exactly one notification, under the fixed name:
    [PBT_APMSUSPEND] gives systemSuspend, [PBT_APMRESUMEAUTOMATIC] and
    [PBT_APMRESUMESUSPEND] give systemResume, [WTS_SESSION_LOCK] gives
    sessionLock and [WTS_SESSION_UNLOCK] gives sessionUnlock. The whole
    trace of each call is that single [InvokeMethod], and the monitor is
    left as it was. *)
Theorem recognized_events_emit_one_notification
    (engine : option FlutterEngine) (w w' : FlutterWindow) (t : Trace)
    (pm : PowerMonitor) :
  make_PowerMonitor engine w = (t, Ok (pm, w')) ->
  exists ch : MethodChannel,
    channel_ pm = Some ch /\
    HandlePowerBroadcast PBT_APMSUSPEND pm
      = ([InvokeMethod ch "systemSuspend" None None], Ok (tt, pm)) /\
    HandlePowerBroadcast PBT_APMRESUMEAUTOMATIC pm
      = ([InvokeMethod ch "systemResume" None None], Ok (tt, pm)) /\
    HandlePowerBroadcast PBT_APMRESUMESUSPEND pm
      = ([InvokeMethod ch "systemResume" None None], Ok (tt, pm)) /\
    HandleSessionChange WTS_SESSION_LOCK pm
      = ([InvokeMethod ch "sessionLock" None None], Ok (tt, pm)) /\
    HandleSessionChange WTS_SESSION_UNLOCK pm
      = ([InvokeMethod ch "sessionUnlock" None None], Ok (tt, pm)).
Proof.
  destruct engine as [engine|]; [|discriminate].
  rewrite make_PowerMonitor_eq. cbv zeta. intros Hmk.
  injection Hmk as _ Hpm _. subst pm.
  eexists. split; [reflexivity|].
  now apply recognized_events_with_channel.
Qed.

(** The monitor built for the sample engine sends one notification per
    recognized event. *)
Lemma recognized_events_emit_one_notification_witness :
  exists ch,
    channel_ sample_monitor = Some ch /\
    trace_of (HandlePowerBroadcast 4 sample_monitor)
      = [InvokeMethod ch "systemSuspend" None None] /\
    trace_of (HandlePowerBroadcast 18 sample_monitor)
      = [InvokeMethod ch "systemResume" None None] /\
    trace_of (HandlePowerBroadcast 7 sample_monitor)
      = [InvokeMethod ch "systemResume" None None] /\
    trace_of (HandleSessionChange 7 sample_monitor)
      = [InvokeMethod ch "sessionLock" None None] /\
    trace_of (HandleSessionChange 8 sample_monitor)
      = [InvokeMethod ch "sessionUnlock" None None].
Proof.
  destruct (recognized_events_emit_one_notification
              (Some sample_engine) sample_window sample_window _
              sample_monitor eq_refl) as (ch & Hch & H1 & H2 & H3 & H4 & H5).
  exists ch. split; [exact Hch|].
  split; [exact (f_equal fst H1)|].
  split; [exact (f_equal fst H2)|].
  split; [exact (f_equal fst H3)|].
  split; [exact (f_equal fst H4)|].
  exact (f_equal fst H5).
Defined.

(** C2: the handler that the constructor installs on the power channel
    replies Success exactly when the method name is startListening, and
    NotImplemented for every other name. *)
Theorem inbound_handler_accepts_only_startListening
    (engine : FlutterEngine) (w : FlutterWindow) :
  exists (ch : MethodChannel) (handler : MethodCallHandler),
    trace_of (make_PowerMonitor (Some engine) w)
      = [SetMethodCallHandler ch handler] /\
    channel_name ch = "com.ghostcopy.app/power" /\
    forall call : MethodCall,
      (handler call = Success None <-> method_name call = "startListening") /\
      (method_name call <> "startListening" -> handler call = NotImplemented) /\
      (handler call = NotImplemented -> method_name call <> "startListening").
Proof.
  exists (mkChannel (messenger engine) kPowerChannel StandardMethodCodec),
         method_call_handler.
  split; [reflexivity|]. split; [reflexivity|].
  intros call.
  destruct (String.eqb_spec (method_name call) "startListening") as [Heq|Hne].
  - rewrite (method_call_handler_startListening call Heq).
    repeat split; intros; try congruence; try discriminate.
  - rewrite (method_call_handler_other call Hne).
    repeat split; intros; try congruence; try discriminate.
Qed.

(** The installed handler on two calls: the registration call and any
    other one. *)
Lemma inbound_handler_accepts_only_startListening_witness :
  exists ch handler,
    trace_of (make_PowerMonitor (Some sample_engine) sample_window)
      = [SetMethodCallHandler ch handler] /\
    handler (mkCall "startListening" None) = Success None /\
    handler (mkCall "stopListening" None) = NotImplemented.
Proof.
  destruct (inbound_handler_accepts_only_startListening
              sample_engine sample_window) as (ch & handler & Ht & _ & Hh).
  exists ch, handler. split; [exact Ht|]. split.
  - apply (proj1 (Hh (mkCall "startListening" None))). reflexivity.
  - apply (proj1 (proj2 (Hh (mkCall "stopListening" None)))). discriminate.
Defined.

(** C5: without a channel, [SendEvent] performs no effect at all, does not
    fault, and leaves the monitor as it was, whatever the event name. *)
Theorem SendEvent_without_channel_is_silent
    (pm : PowerMonitor) (event_name : string) :
  channel_ pm = None ->
  SendEvent event_name pm = ([], Ok (tt, pm)).
Proof.
  apply SendEvent_absent.
Qed.

Lemma SendEvent_without_channel_is_silent_witness :
  SendEvent "systemSuspend" {| channel_ := None |}
    = ([], Ok (tt, {| channel_ := None |})).
Proof.
  apply (SendEvent_without_channel_is_silent
           {| channel_ := None |} "systemSuspend").
  reflexivity.
Defined.

(** C6: with a channel, [SendEvent] makes one [InvokeMethod] call for the
    given name, with a null argument pointer and no result handler; it
    returns nothing and the monitor is unchanged. *)
Theorem SendEvent_has_no_payload_and_no_reply
    (pm : PowerMonitor) (ch : MethodChannel) (event_name : string) :
  channel_ pm = Some ch ->
  SendEvent event_name pm
    = ([InvokeMethod ch event_name None None], Ok (tt, pm)).
Proof.
  apply SendEvent_present.
Qed.

Lemma SendEvent_has_no_payload_and_no_reply_witness :
  SendEvent "sessionLock" sample_monitor
    = ([InvokeMethod (mkChannel 1 "com.ghostcopy.app/power" StandardMethodCodec)
                     "sessionLock" None None],
       Ok (tt, sample_monitor)).
Proof.
  apply (SendEvent_has_no_payload_and_no_reply sample_monitor).
  reflexivity.
Defined.

(** Every call of a handler sends nothing or one [InvokeMethod] on the
    monitor's channel, under one of the four names. *)
Lemma HandlePowerBroadcast_cases (wparam : WPARAM) (pm : PowerMonitor) :
  HandlePowerBroadcast wparam pm = ([], Ok (tt, pm)) \/
  exists ch name,
    channel_ pm = Some ch /\
    (name = "systemSuspend" \/ name = "systemResume") /\
    HandlePowerBroadcast wparam pm
      = ([InvokeMethod ch name None None], Ok (tt, pm)).
Proof.
  unfold HandlePowerBroadcast.
  destruct (channel_ pm) as [ch|] eqn:Hch.
  - destruct (wparam =? PBT_APMSUSPEND);
      [|destruct ((wparam =? PBT_APMRESUMEAUTOMATIC)
                  || (wparam =? PBT_APMRESUMESUSPEND))].
    + right. exists ch, "systemSuspend".
      rewrite (SendEvent_present pm ch _ Hch). auto.
    + right. exists ch, "systemResume".
      rewrite (SendEvent_present pm ch _ Hch). auto.
    + left. reflexivity.
  - left.
    destruct (wparam =? PBT_APMSUSPEND);
      [|destruct ((wparam =? PBT_APMRESUMEAUTOMATIC)
                  || (wparam =? PBT_APMRESUMESUSPEND))];
      try apply SendEvent_absent; auto.
Qed.

Lemma HandleSessionChange_cases (wparam : WPARAM) (pm : PowerMonitor) :
  HandleSessionChange wparam pm = ([], Ok (tt, pm)) \/
  exists ch name,
    channel_ pm = Some ch /\
    (name = "sessionLock" \/ name = "sessionUnlock") /\
    HandleSessionChange wparam pm
      = ([InvokeMethod ch name None None], Ok (tt, pm)).
Proof.
  unfold HandleSessionChange.
  destruct (channel_ pm) as [ch|] eqn:Hch.
  - destruct (wparam =? WTS_SESSION_LOCK);
      [|destruct (wparam =? WTS_SESSION_UNLOCK)].
    + right. exists ch, "sessionLock".
      rewrite (SendEvent_present pm ch _ Hch). auto.
    + right. exists ch, "sessionUnlock".
      rewrite (SendEvent_present pm ch _ Hch). auto.
    + left. reflexivity.
  - left.
    destruct (wparam =? WTS_SESSION_LOCK);
      [|destruct (wparam =? WTS_SESSION_UNLOCK)];
      try apply SendEvent_absent; auto.
Qed.

(** C8: for a monitor built by the constructor and any [wparam], every
    effect of either handler is an [InvokeMethod], each on the channel
    named com.ghostcopy.app/power and each under one of the four names
    systemSuspend, systemResume, sessionLock, sessionUnlock. *)
Theorem notifications_have_four_names_on_the_power_channel
    (engine : option FlutterEngine) (w w' : FlutterWindow) (t : Trace)
    (pm : PowerMonitor) (wparam : WPARAM) :
  make_PowerMonitor engine w = (t, Ok (pm, w')) ->
  let allowed (e : Effect) :=
    exists ch name,
      e = InvokeMethod ch name None None /\
      channel_name ch = "com.ghostcopy.app/power" /\
      In name ["systemSuspend"; "systemResume"; "sessionLock"; "sessionUnlock"]
  in
  Forall allowed (trace_of (HandlePowerBroadcast wparam pm)) /\
  Forall allowed (trace_of (HandleSessionChange wparam pm)).
Proof.
  destruct engine as [engine|]; [|discriminate].
  rewrite make_PowerMonitor_eq. cbv zeta. intros Hmk.
  injection Hmk as _ Hpm _. subst pm.
  split.
  - destruct (HandlePowerBroadcast_cases wparam
                {| channel_ := Some (mkChannel (messenger engine) kPowerChannel
                                               StandardMethodCodec) |})
      as [H | (ch & name & Hch & Hname & H)]; rewrite H; cbn [trace_of fst].
    + constructor.
    + constructor; [|constructor]. exists ch, name.
      cbn in Hch. injection Hch as <-.
      split; [reflexivity|]. split; [reflexivity|].
      cbn. intuition.
  - destruct (HandleSessionChange_cases wparam
                {| channel_ := Some (mkChannel (messenger engine) kPowerChannel
                                               StandardMethodCodec) |})
      as [H | (ch & name & Hch & Hname & H)]; rewrite H; cbn [trace_of fst].
    + constructor.
    + constructor; [|constructor]. exists ch, name.
      cbn in Hch. injection Hch as <-.
      split; [reflexivity|]. split; [reflexivity|].
      cbn. intuition.
Qed.

Lemma notifications_have_four_names_on_the_power_channel_witness :
  notifications (trace_of (HandlePowerBroadcast 18 sample_monitor))
    = [("com.ghostcopy.app/power", "systemResume")] /\
  Forall (fun e => exists ch name,
            e = InvokeMethod ch name None None /\
            channel_name ch = "com.ghostcopy.app/power" /\
            In name ["systemSuspend"; "systemResume";
                     "sessionLock"; "sessionUnlock"])
         (trace_of (HandlePowerBroadcast 18 sample_monitor)).
Proof.
  split; [reflexivity|].
  exact (proj1 (notifications_have_four_names_on_the_power_channel
                  (Some sample_engine) sample_window sample_window
                  _ sample_monitor 18 eq_refl)).
Defined.

(** C10: a [wparam] outside the recognized values makes the handler return
    with no effect and with the monitor unchanged. *)
Theorem unrecognized_events_are_ignored
    (pm : PowerMonitor) (power_wparam session_wparam : WPARAM) :
  power_wparam <> PBT_APMSUSPEND ->
  power_wparam <> PBT_APMRESUMEAUTOMATIC ->
  power_wparam <> PBT_APMRESUMESUSPEND ->
  session_wparam <> WTS_SESSION_LOCK ->
  session_wparam <> WTS_SESSION_UNLOCK ->
  HandlePowerBroadcast power_wparam pm = ([], Ok (tt, pm)) /\
  HandleSessionChange session_wparam pm = ([], Ok (tt, pm)).
Proof.
  intros H1 H2 H3 H4 H5.
  unfold HandlePowerBroadcast, HandleSessionChange.
  apply Z.eqb_neq in H1, H2, H3, H4, H5.
  rewrite H1, H2, H3, H4, H5. split; reflexivity.
Qed.

(** [PBT_POWERSTATUSCHANGE] (10) and [WTS_SESSION_LOGON] (5) are ignored. *)
Lemma unrecognized_events_are_ignored_witness :
  HandlePowerBroadcast 10 sample_monitor = ([], Ok (tt, sample_monitor)) /\
  HandleSessionChange 5 sample_monitor = ([], Ok (tt, sample_monitor)).
Proof.
  apply (unrecognized_events_are_ignored sample_monitor 10 5);
    unfold PBT_APMSUSPEND, PBT_APMRESUMEAUTOMATIC, PBT_APMRESUMESUSPEND,
           WTS_SESSION_LOCK, WTS_SESSION_UNLOCK; lia.
Defined.

(** ** flutter_window.cpp *)

(** [OnCreate] in closed form: the three ways it can end. *)
Lemma OnCreate_eq (h : Host) (w : FlutterWindow) :
  OnCreate h w =
    if negb (base_OnCreate h) then ([Win32Window_OnCreate], Ok (false, w))
    else
      let c := initial_controller h w in
      match engine c, view c with
      | Some e, Some v =>
          let ch := mkChannel (messenger e) kPowerChannel StandardMethodCodec in
          ([Win32Window_OnCreate;
            NewFlutterViewController (controller_width c) (controller_height c)
                                     (project_ w);
            RegisterPlugins (Some e);
            SetChildContent (GetNativeWindow v);
            SetMethodCallHandler ch method_call_handler;
            WTSRegisterSessionNotification (GetHandle h) NOTIFY_FOR_THIS_SESSION;
            SetNextFrameCallback e ShowWhenControllerAlive;
            ForceRedraw],
           Ok (true, {| project_ := project_ w;
                        flutter_controller_ := Some c;
                        power_monitor_ := Some {| channel_ := Some ch |} |}))
      | _, _ =>
          ([Win32Window_OnCreate;
            NewFlutterViewController (controller_width c) (controller_height c)
                                     (project_ w)],
           Ok (false, {| project_ := project_ w;
                         flutter_controller_ := Some c;
                         power_monitor_ := power_monitor_ w |}))
      end.
Proof.
  unfold OnCreate, initial_controller.
  destruct (base_OnCreate h); [|reflexivity].
  cbv [negb bind emit ret get put deref make_FlutterViewController
       set_flutter_controller set_power_monitor controller_engine
       controller_view make_PowerMonitor PowerMonitor_ctor
       project_ flutter_controller_ power_monitor_ engine view
       controller_width controller_height channel_ app fst snd].
  destruct (engine_for h _ _ _) as [e|]; [|reflexivity].
  destruct (view_for h _ _ _) as [v|]; reflexivity.
Qed.

Lemma OnDestroy_eq (h : Host) (w : FlutterWindow) :
  OnDestroy h w =
    ([WTSUnRegisterSessionNotification (GetHandle h); Win32Window_OnDestroy],
     Ok (tt, {| project_ := project_ w;
                flutter_controller_ := None;
                power_monitor_ := None |})).
Proof.
  destruct w as [p [c|] [pm|]]; reflexivity.
Qed.

Lemma invoke_callback_eq (w : FlutterWindow) :
  invoke_callback ShowWhenControllerAlive w =
    (match flutter_controller_ w with
     | Some _ => [Win32Window_Show]
     | None => []
     end, Ok (tt, w)).
Proof.
  unfold invoke_callback. rewrite bind_get.
  destruct (flutter_controller_ w); reflexivity.
Qed.

Lemma LONG_sub_exact (a b : LONG) :
  in_LONG (a - b) -> LONG_sub a b = a - b.
Proof.
  unfold in_LONG, LONG_MIN, LONG_MAX, LONG_sub, wrap_LONG. intros H.
  rewrite Z.mod_small by lia. lia.
Qed.

(** C3: [OnCreate] never calls [Show] itself. When it succeeds, the last
    two things it does are to register the next-frame callback and then to
    force a redraw; that callback, run on the window [OnCreate] leaves
    behind, is what calls [Show]. *)
Theorem OnCreate_defers_Show_to_next_frame (h : Host) (w : FlutterWindow) :
  existsb is_Show (trace_of (OnCreate h w)) = false /\
  (value_of (OnCreate h w) = Some true ->
   exists (before : Trace) (e : FlutterEngine) (w' : FlutterWindow),
     OnCreate h w
       = (before ++ [SetNextFrameCallback e ShowWhenControllerAlive;
                     ForceRedraw],
          Ok (true, w')) /\
     existsb is_SetNextFrameCallback before = false /\
     invoke_callback ShowWhenControllerAlive w'
       = ([Win32Window_Show], Ok (tt, w'))).
Proof.
  rewrite OnCreate_eq.
  destruct (base_OnCreate h); cbn [negb].
  - cbv zeta.
    destruct (engine (initial_controller h w)) as [e|];
      [destruct (view (initial_controller h w)) as [v|]|].
    + split; [reflexivity|]. intros _.
      eexists [_; _; _; _; _; _], e, _.
      split; [reflexivity|]. split; [reflexivity|].
      rewrite invoke_callback_eq. reflexivity.
    + split; [reflexivity|]. cbn. discriminate.
    + split; [reflexivity|]. cbn. discriminate.
  - split; [reflexivity|]. cbn. discriminate.
Qed.

Lemma OnCreate_defers_Show_to_next_frame_witness :
  value_of (OnCreate sample_host sample_window) = Some true /\
  exists before e w',
    OnCreate sample_host sample_window
      = (before ++ [SetNextFrameCallback e ShowWhenControllerAlive;
                    ForceRedraw],
         Ok (true, w')) /\
    existsb is_SetNextFrameCallback before = false /\
    invoke_callback ShowWhenControllerAlive w'
      = ([Win32Window_Show], Ok (tt, w')).
Proof.
  split; [reflexivity|].
  apply (proj2 (OnCreate_defers_Show_to_next_frame sample_host sample_window)).
  reflexivity.
Defined.

(** C4: when the controller that [OnCreate] constructs has no engine or no
    view, [OnCreate] returns false, and up to that point it has registered
    no plugins, constructed no power monitor (the field is untouched and no
    channel handler was set), not shown the window and not registered the
    callback that would show it. *)
Theorem OnCreate_fails_when_engine_or_view_missing
    (h : Host) (w : FlutterWindow) :
  let frame := GetClientArea h in
  let width := LONG_sub (right frame) (left frame) in
  let height := LONG_sub (bottom frame) (top frame) in
  engine_for h width height (project_ w) = None \/
  view_for h width height (project_ w) = None ->
  exists (t : Trace) (w' : FlutterWindow),
    OnCreate h w = (t, Ok (false, w')) /\
    existsb is_RegisterPlugins t = false /\
    existsb is_SetMethodCallHandler t = false /\
    power_monitor_ w' = power_monitor_ w /\
    existsb is_Show t = false /\
    existsb is_SetNextFrameCallback t = false.
Proof.
  intros frame width height Hmissing.
  rewrite OnCreate_eq.
  destruct (base_OnCreate h); cbn [negb].
  - cbv zeta. unfold initial_controller. cbn [engine view].
    fold frame. fold width. fold height.
    destruct Hmissing as [He | Hv].
    + rewrite He. eexists _, _. repeat split; reflexivity.
    + rewrite Hv.
      destruct (engine_for h width height (project_ w));
        eexists _, _; repeat split; reflexivity.
  - eexists _, _. repeat split; reflexivity.
Qed.

Lemma OnCreate_fails_when_engine_or_view_missing_witness :
  exists t w',
    OnCreate failing_host sample_window = (t, Ok (false, w')) /\
    existsb is_RegisterPlugins t = false /\
    existsb is_SetMethodCallHandler t = false /\
    power_monitor_ w' = power_monitor_ sample_window /\
    existsb is_Show t = false /\
    existsb is_SetNextFrameCallback t = false.
Proof.
  apply (OnCreate_fails_when_engine_or_view_missing failing_host sample_window).
  left. reflexivity.
Defined.

(** C7: once the base class has created the window, [OnCreate] constructs
    exactly one view controller, and its width and height are the extents
    of the client area, [frame.right - frame.left] by
    [frame.bottom - frame.top]; the controller is stored in
    [flutter_controller_] whether or not the engine came up. For a client
    area whose extents fit a [LONG] these are the plain differences. *)
Theorem controller_has_client_area_size (h : Host) (w : FlutterWindow) :
  base_OnCreate h = true ->
  let frame := GetClientArea h in
  exists (t : Trace) (r : bool) (w' : FlutterWindow) (c : FlutterViewController),
    OnCreate h w = (t, Ok (r, w')) /\
    flutter_controller_ w' = Some c /\
    controller_width c = LONG_sub (right frame) (left frame) /\
    controller_height c = LONG_sub (bottom frame) (top frame) /\
    filter is_NewFlutterViewController t
      = [NewFlutterViewController (controller_width c) (controller_height c)
                                  (project_ w)] /\
    (in_LONG (right frame - left frame) ->
     controller_width c = right frame - left frame) /\
    (in_LONG (bottom frame - top frame) ->
     controller_height c = bottom frame - top frame).
Proof.
  intros Hbase frame.
  rewrite OnCreate_eq, Hbase. cbn [negb]. cbv zeta.
  assert (Hw : controller_width (initial_controller h w)
               = LONG_sub (right frame) (left frame)) by reflexivity.
  assert (Hh : controller_height (initial_controller h w)
               = LONG_sub (bottom frame) (top frame)) by reflexivity.
  destruct (engine (initial_controller h w)) as [e|];
    [destruct (view (initial_controller h w)) as [v|]|];
    eexists _, _, _, (initial_controller h w);
    (split; [reflexivity|]);
    (split; [reflexivity|]);
    (split; [exact Hw|]);
    (split; [exact Hh|]);
    (split; [reflexivity|]);
    (split; intros Hfit; [rewrite Hw | rewrite Hh]; now apply LONG_sub_exact).
Qed.

Lemma controller_has_client_area_size_witness :
  exists t r w' c,
    OnCreate sample_host sample_window = (t, Ok (r, w')) /\
    flutter_controller_ w' = Some c /\
    controller_width c = 1280 /\
    controller_height c = 720.
Proof.
  destruct (controller_has_client_area_size sample_host sample_window eq_refl)
    as (t & r & w' & c & Hrun & Hc & _ & _ & _ & Hw & Hh).
  exists t, r, w', c.
  split; [exact Hrun|]. split; [exact Hc|].
  split; [apply Hw | apply Hh]; cbn; unfold in_LONG, LONG_MIN, LONG_MAX; lia.
Defined.

(** With no controller the engine never sees the message, and the two
    guarded branches fall through to the base class. *)
Lemma MessageHandler_power_without_controller
    (h : Host) (hwnd : HWND) (wparam : WPARAM) (lparam : LPARAM)
    (w : FlutterWindow) :
  flutter_controller_ w = None ->
  snd (MessageHandler h hwnd WM_POWERBROADCAST wparam lparam w)
    = Ok (base_MessageHandler h hwnd WM_POWERBROADCAST wparam lparam, w).
Proof.
  intros Hc. destruct w as [p c pm]. cbn in Hc. subst c.
  unfold MessageHandler. rewrite bind_get. cbn [flutter_controller_].
  rewrite bind_ret_l.
  change (WM_POWERBROADCAST =? WM_FONTCHANGE) with false.
  change (WM_POWERBROADCAST =? WM_POWERBROADCAST) with true.
  cbv iota.
  destruct pm as [pm|].
  - unfold bind at 1. rewrite bind_get. cbn [power_monitor_].
    unfold on_power_monitor, on_member.
    destruct (HandlePowerBroadcast_cases wparam pm)
      as [H | (ch & name & _ & _ & H)]; rewrite H; reflexivity.
  - reflexivity.
Qed.

Lemma MessageHandler_session_without_controller
    (h : Host) (hwnd : HWND) (wparam : WPARAM) (lparam : LPARAM)
    (w : FlutterWindow) :
  flutter_controller_ w = None ->
  snd (MessageHandler h hwnd WM_WTSSESSION_CHANGE wparam lparam w)
    = Ok (base_MessageHandler h hwnd WM_WTSSESSION_CHANGE wparam lparam, w).
Proof.
  intros Hc. destruct w as [p c pm]. cbn in Hc. subst c.
  unfold MessageHandler. rewrite bind_get. cbn [flutter_controller_].
  rewrite bind_ret_l.
  change (WM_WTSSESSION_CHANGE =? WM_FONTCHANGE) with false.
  change (WM_WTSSESSION_CHANGE =? WM_POWERBROADCAST) with false.
  change (WM_WTSSESSION_CHANGE =? WM_WTSSESSION_CHANGE) with true.
  cbv iota.
  destruct pm as [pm|].
  - unfold bind at 1. rewrite bind_get. cbn [power_monitor_].
    unfold on_power_monitor, on_member.
    destruct (HandleSessionChange_cases wparam pm)
      as [H | (ch & name & _ & _ & H)]; rewrite H; reflexivity.
  - reflexivity.
Qed.

(** C9: with [flutter_controller_] null, a [WM_FONTCHANGE] message makes
    [MessageHandler] dereference the null pointer, before any effect; the
    [WM_POWERBROADCAST] and [WM_WTSSESSION_CHANGE] branches, which test
    [power_monitor_] first, return the base class's result with the window
    unchanged, and with [power_monitor_] null too they do nothing but call
    the base class. *)
Theorem WM_FONTCHANGE_dereferences_null_controller
    (h : Host) (hwnd : HWND) (wparam : WPARAM) (lparam : LPARAM)
    (w : FlutterWindow) :
  flutter_controller_ w = None ->
  MessageHandler h hwnd WM_FONTCHANGE wparam lparam w = ([], NullDereference) /\
  snd (MessageHandler h hwnd WM_POWERBROADCAST wparam lparam w)
    = Ok (base_MessageHandler h hwnd WM_POWERBROADCAST wparam lparam, w) /\
  snd (MessageHandler h hwnd WM_WTSSESSION_CHANGE wparam lparam w)
    = Ok (base_MessageHandler h hwnd WM_WTSSESSION_CHANGE wparam lparam, w) /\
  (power_monitor_ w = None ->
   MessageHandler h hwnd WM_POWERBROADCAST wparam lparam w
     = ([Win32Window_MessageHandler hwnd WM_POWERBROADCAST wparam lparam],
        Ok (base_MessageHandler h hwnd WM_POWERBROADCAST wparam lparam, w)) /\
   MessageHandler h hwnd WM_WTSSESSION_CHANGE wparam lparam w
     = ([Win32Window_MessageHandler hwnd WM_WTSSESSION_CHANGE wparam lparam],
        Ok (base_MessageHandler h hwnd WM_WTSSESSION_CHANGE wparam lparam, w))).
Proof.
  intros Hc.
  split; [|split; [|split]].
  - destruct w as [p c pm]. cbn in Hc. subst c. reflexivity.
  - now apply MessageHandler_power_without_controller.
  - now apply MessageHandler_session_without_controller.
  - intros Hpm. destruct w as [p c pm]. cbn in Hc, Hpm. subst c pm.
    split; reflexivity.
Qed.

(** The window left behind by [OnCreate] followed by [OnDestroy] has no
    controller; a font change then faults, a power broadcast does not. *)
Lemma WM_FONTCHANGE_dereferences_null_controller_witness :
  exists w1 w2,
    state_of (OnCreate sample_host sample_window) = Some w1 /\
    state_of (OnDestroy sample_host w1) = Some w2 /\
    flutter_controller_ w2 = None /\
    MessageHandler sample_host 42 WM_FONTCHANGE 0 0 w2 = ([], NullDereference) /\
    snd (MessageHandler sample_host 42 WM_POWERBROADCAST 4 0 w2) = Ok (0, w2).
Proof.
  eexists _, _.
  split; [reflexivity|]. split; [reflexivity|]. split; [reflexivity|].
  pose proof (WM_FONTCHANGE_dereferences_null_controller
                sample_host 42 4 0
                {| project_ := MkDartProject "data";
                   flutter_controller_ := None;
                   power_monitor_ := None |} eq_refl) as (_ & Hpower & _).
  pose proof (WM_FONTCHANGE_dereferences_null_controller
                sample_host 42 0 0
                {| project_ := MkDartProject "data";
                   flutter_controller_ := None;
                   power_monitor_ := None |} eq_refl) as (Hfont & _).
  split; [exact Hfont | exact Hpower].
Defined.

(** * Further properties of the two files *)

(** ** The handlers of the power monitor on arbitrary input *)

Lemma HandlePowerBroadcast_run (wparam : WPARAM) (pm : PowerMonitor) :
  HandlePowerBroadcast wparam pm
    = (trace_of (HandlePowerBroadcast wparam pm), Ok (tt, pm)).
Proof.
  destruct (HandlePowerBroadcast_cases wparam pm)
    as [H | (ch & name & _ & _ & H)]; rewrite H; reflexivity.
Qed.

Lemma HandleSessionChange_run (wparam : WPARAM) (pm : PowerMonitor) :
  HandleSessionChange wparam pm
    = (trace_of (HandleSessionChange wparam pm), Ok (tt, pm)).
Proof.
  destruct (HandleSessionChange_cases wparam pm)
    as [H | (ch & name & _ & _ & H)]; rewrite H; reflexivity.
Qed.

(** ** [MessageHandler] in closed form *)

Lemma MessageHandler_eq (h : Host) (hwnd : HWND) (message : UINT)
    (wparam : WPARAM) (lparam : LPARAM) (w : FlutterWindow) :
  MessageHandler h hwnd message wparam lparam w =
    let seen := match flutter_controller_ w with
                | Some _ =>
                    [HandleTopLevelWindowProc hwnd message wparam lparam]
                | None => []
                end in
    let base := Win32Window_MessageHandler hwnd message wparam lparam in
    let r := base_MessageHandler h hwnd message wparam lparam in
    match match flutter_controller_ w with
          | Some _ => top_level_proc h hwnd message wparam lparam
          | None => None
          end with
    | Some handled => (seen, Ok (handled, w))
    | None =>
        if message =? WM_FONTCHANGE then
          match flutter_controller_ w with
          | Some c =>
              match engine c with
              | Some e => (seen ++ [ReloadSystemFonts e; base], Ok (r, w))
              | None => (seen, NullDereference)
              end
          | None => (seen, NullDereference)
          end
        else if message =? WM_POWERBROADCAST then
          (seen ++ match power_monitor_ w with
                   | Some pm => trace_of (HandlePowerBroadcast wparam pm)
                   | None => []
                   end ++ [base], Ok (r, w))
        else if message =? WM_WTSSESSION_CHANGE then
          (seen ++ match power_monitor_ w with
                   | Some pm => trace_of (HandleSessionChange wparam pm)
                   | None => []
                   end ++ [base], Ok (r, w))
        else (seen ++ [base], Ok (r, w))
    end.
Proof.
  destruct w as [p c pm].
  unfold MessageHandler. rewrite bind_get.
  cbn [flutter_controller_ power_monitor_]. cbv zeta.
  destruct c as [[cw chh cp eo v]|].
  - unfold bind at 1. unfold bind at 1. cbn [emit ret app].
    destruct (top_level_proc h hwnd message wparam lparam) as [handled|];
      [reflexivity|].
    cbn [engine].
    destruct (message =? WM_FONTCHANGE);
      [|destruct (message =? WM_POWERBROADCAST);
        [|destruct (message =? WM_WTSSESSION_CHANGE)]].
    + destruct eo as [e|]; reflexivity.
    + destruct pm as [pm|]; [|reflexivity].
      unfold bind at 1. rewrite bind_get.
      cbn [power_monitor_]. unfold on_power_monitor, on_member.
      rewrite (HandlePowerBroadcast_run wparam pm). reflexivity.
    + destruct pm as [pm|]; [|reflexivity].
      unfold bind at 1. rewrite bind_get.
      cbn [power_monitor_]. unfold on_power_monitor, on_member.
      rewrite (HandleSessionChange_run wparam pm). reflexivity.
    + reflexivity.
  - rewrite bind_ret_l.
    destruct (message =? WM_FONTCHANGE);
      [|destruct (message =? WM_POWERBROADCAST);
        [|destruct (message =? WM_WTSSESSION_CHANGE)]].
    + reflexivity.
    + destruct pm as [pm|]; [|reflexivity].
      unfold bind at 1. rewrite bind_get.
      cbn [power_monitor_]. unfold on_power_monitor, on_member.
      rewrite (HandlePowerBroadcast_run wparam pm). reflexivity.
    + destruct pm as [pm|]; [|reflexivity].
      unfold bind at 1. rewrite bind_get.
      cbn [power_monitor_]. unfold on_power_monitor, on_member.
      rewrite (HandleSessionChange_run wparam pm). reflexivity.
    + reflexivity.
Qed.

(** ** power_monitor.cpp on arbitrary input *)

(** X1: for every [wparam] and every monitor, with or without a channel,
    either handler returns normally, leaves the monitor exactly as it was
    and performs at most one effect. *)
Theorem handlers_keep_monitor_and_send_at_most_once
    (wparam : WPARAM) (pm : PowerMonitor) :
  snd (HandlePowerBroadcast wparam pm) = Ok (tt, pm) /\
  snd (HandleSessionChange wparam pm) = Ok (tt, pm) /\
  (List.length (trace_of (HandlePowerBroadcast wparam pm)) <= 1)%nat /\
  (List.length (trace_of (HandleSessionChange wparam pm)) <= 1)%nat.
Proof.
  destruct (HandlePowerBroadcast_cases wparam pm)
    as [Hp | (ch & name & _ & _ & Hp)];
  destruct (HandleSessionChange_cases wparam pm)
    as [Hs | (ch' & name' & _ & _ & Hs)];
  rewrite Hp, Hs; cbn; repeat split; lia.
Qed.

(** X2: the constructor dereferences its engine argument first: given a
    null engine it faults before any effect; given an engine it sets the
    method-call handler, and nothing else, on a channel that uses the
    engine's messenger, the fixed name and the standard codec, and the
    monitor holds that channel. The caller's fields are not touched. *)
Theorem PowerMonitor_constructor_outcome
    (engine : option FlutterEngine) (w : FlutterWindow) :
  match engine with
  | None => make_PowerMonitor engine w = ([], NullDereference)
  | Some e =>
      exists ch handler,
        make_PowerMonitor engine w
          = ([SetMethodCallHandler ch handler],
             Ok ({| channel_ := Some ch |}, w)) /\
        channel_messenger ch = messenger e /\
        channel_name ch = "com.ghostcopy.app/power" /\
        channel_codec ch = StandardMethodCodec
  end.
Proof.
  destruct engine as [e|].
  - rewrite make_PowerMonitor_eq. cbv zeta.
    eexists _, _. repeat split; reflexivity.
  - reflexivity.
Qed.

(** ** [OnCreate] *)

(** X3: [OnCreate] never dereferences a null pointer, and it returns true
    exactly when the base class created the window and the controller it
    constructed has both an engine and a view. *)
Theorem OnCreate_succeeds_iff_engine_and_view (h : Host) (w : FlutterWindow) :
  let frame := GetClientArea h in
  let width := LONG_sub (right frame) (left frame) in
  let height := LONG_sub (bottom frame) (top frame) in
  exists (t : Trace) (r : bool) (w' : FlutterWindow),
    OnCreate h w = (t, Ok (r, w')) /\
    (r = true <->
     base_OnCreate h = true /\
     engine_for h width height (project_ w) <> None /\
     view_for h width height (project_ w) <> None).
Proof.
  intros frame width height.
  rewrite OnCreate_eq. unfold initial_controller. cbn [engine view].
  fold frame. fold width. fold height.
  destruct (base_OnCreate h); cbn [negb]; cbv zeta.
  - destruct (engine_for h width height (project_ w)) as [e|];
      [destruct (view_for h width height (project_ w)) as [v|]|];
      eexists _, _, _; (split; [reflexivity|]);
      split; intros H; try discriminate; try (repeat split; congruence);
      destruct H as (_ & He & Hv); congruence.
  - eexists _, _, _. split; [reflexivity|].
    split; [discriminate|]. intros (H & _). discriminate.
Qed.

Lemma OnCreate_succeeds_iff_engine_and_view_witness :
  value_of (OnCreate sample_host sample_window) = Some true /\
  value_of (OnCreate failing_host sample_window) = Some false.
Proof.
  destruct (OnCreate_succeeds_iff_engine_and_view sample_host sample_window)
    as (t & r & w' & Hrun & Hiff).
  destruct (OnCreate_succeeds_iff_engine_and_view failing_host sample_window)
    as (t2 & r2 & w2 & Hrun2 & Hiff2).
  unfold value_of. rewrite Hrun, Hrun2. cbn [snd].
  split.
  - f_equal. apply (proj2 Hiff). repeat split; discriminate.
  - destruct r2; [|reflexivity].
    destruct (proj1 Hiff2 eq_refl) as (_ & He & _).
    exfalso. apply He. reflexivity.
Defined.

(** X4: when the base class fails to create the window, [OnCreate] returns
    false at once: no controller is constructed and the window's fields are
    unchanged. *)
Theorem OnCreate_stops_when_base_class_fails (h : Host) (w : FlutterWindow) :
  base_OnCreate h = false ->
  OnCreate h w = ([Win32Window_OnCreate], Ok (false, w)).
Proof.
  intros Hbase. rewrite OnCreate_eq, Hbase. reflexivity.
Qed.

Lemma OnCreate_stops_when_base_class_fails_witness :
  OnCreate base_failing_host sample_window
    = ([Win32Window_OnCreate], Ok (false, sample_window)).
Proof.
  apply (OnCreate_stops_when_base_class_fails base_failing_host sample_window).
  reflexivity.
Defined.

(** X5: when the base class succeeds and the controller has an engine and
    a view, [OnCreate] performs, in this order and nothing else: the base
    call, the controller construction, plugin registration on the engine,
    attaching the view's native window as child content, setting the
    power channel's handler, registering the window's own handle for
    session notifications of this session, registering the next-frame
    callback on the engine, and forcing a redraw. It leaves the controller
    in [flutter_controller_] and, in [power_monitor_], a monitor whose
    channel is on that engine's messenger. *)
Theorem OnCreate_success_sequence
    (h : Host) (w : FlutterWindow) (e : FlutterEngine) (v : FlutterView) :
  let frame := GetClientArea h in
  let width := LONG_sub (right frame) (left frame) in
  let height := LONG_sub (bottom frame) (top frame) in
  base_OnCreate h = true ->
  engine_for h width height (project_ w) = Some e ->
  view_for h width height (project_ w) = Some v ->
  let ch := mkChannel (messenger e) "com.ghostcopy.app/power"
                      StandardMethodCodec in
  OnCreate h w =
    ([Win32Window_OnCreate;
      NewFlutterViewController width height (project_ w);
      RegisterPlugins (Some e);
      SetChildContent (GetNativeWindow v);
      SetMethodCallHandler ch method_call_handler;
      WTSRegisterSessionNotification (GetHandle h) NOTIFY_FOR_THIS_SESSION;
      SetNextFrameCallback e ShowWhenControllerAlive;
      ForceRedraw],
     Ok (true,
         {| project_ := project_ w;
            flutter_controller_ :=
              Some (mkController width height (project_ w) (Some e) (Some v));
            power_monitor_ := Some {| channel_ := Some ch |} |})).
Proof.
  intros frame width height Hbase He Hv ch.
  rewrite OnCreate_eq, Hbase. unfold initial_controller.
  cbn [negb engine view controller_width controller_height]. cbv zeta.
  fold frame. fold width. fold height.
  rewrite He, Hv. reflexivity.
Qed.

Lemma OnCreate_success_sequence_witness :
  OnCreate sample_host sample_window =
    ([Win32Window_OnCreate;
      NewFlutterViewController 1280 720 (MkDartProject "data");
      RegisterPlugins (Some sample_engine);
      SetChildContent 77;
      SetMethodCallHandler
        (mkChannel 1 "com.ghostcopy.app/power" StandardMethodCodec)
        method_call_handler;
      WTSRegisterSessionNotification 42 0;
      SetNextFrameCallback sample_engine ShowWhenControllerAlive;
      ForceRedraw],
     Ok (true, created_window)).
Proof.
  apply (OnCreate_success_sequence sample_host sample_window
           sample_engine sample_view); reflexivity.
Defined.

(** X6: the value [OnCreate] returns tells exactly which setup was done:
    plugins are registered, the power channel's handler is set, session
    notifications are registered (once, for the window's handle) and the
    next-frame callback is registered when it returns true, and none of
    the four happens when it returns false. *)
Theorem OnCreate_setup_is_all_or_nothing
    (h : Host) (w w' : FlutterWindow) (t : Trace) (r : bool) :
  OnCreate h w = (t, Ok (r, w')) ->
  existsb is_RegisterPlugins t = r /\
  existsb is_SetMethodCallHandler t = r /\
  filter is_WTSRegisterSessionNotification t
    = (if r
       then [WTSRegisterSessionNotification (GetHandle h)
                                            NOTIFY_FOR_THIS_SESSION]
       else []) /\
  existsb is_SetNextFrameCallback t = r /\
  (r = false -> power_monitor_ w' = power_monitor_ w).
Proof.
  rewrite OnCreate_eq.
  destruct (base_OnCreate h); cbn [negb]; cbv zeta.
  - destruct (engine (initial_controller h w)) as [e|];
      [destruct (view (initial_controller h w)) as [v|]|];
      intros Hrun; injection Hrun as <- <- <-;
      repeat split; try reflexivity; try discriminate.
  - intros Hrun; injection Hrun as <- <- <-.
    repeat split; reflexivity.
Qed.

Lemma OnCreate_setup_is_all_or_nothing_witness :
  filter is_WTSRegisterSessionNotification
         (trace_of (OnCreate sample_host sample_window))
    = [WTSRegisterSessionNotification 42 0] /\
  filter is_WTSRegisterSessionNotification
         (trace_of (OnCreate failing_host sample_window))
    = [].
Proof.
  split.
  - exact (proj1 (proj2 (proj2
             (OnCreate_setup_is_all_or_nothing
                sample_host sample_window created_window _ true eq_refl)))).
  - exact (proj1 (proj2 (proj2
             (OnCreate_setup_is_all_or_nothing
                failing_host sample_window _ _ false eq_refl)))).
Defined.

(** ** [OnDestroy] *)

(** X7: from any window, [OnDestroy] unregisters the session notification
    for the window's handle, then calls the base class, and nothing else;
    it never faults, keeps the project and leaves both smart pointers
    null. Run again on its own result it performs the same two calls and
    changes nothing. *)
Theorem OnDestroy_resets_both_pointers (h : Host) (w : FlutterWindow) :
  exists w' : FlutterWindow,
    OnDestroy h w
      = ([WTSUnRegisterSessionNotification (GetHandle h);
          Win32Window_OnDestroy], Ok (tt, w')) /\
    project_ w' = project_ w /\
    flutter_controller_ w' = None /\
    power_monitor_ w' = None /\
    OnDestroy h w'
      = ([WTSUnRegisterSessionNotification (GetHandle h);
          Win32Window_OnDestroy], Ok (tt, w')).
Proof.
  eexists. rewrite OnDestroy_eq.
  split; [reflexivity|]. repeat split; reflexivity.
Qed.

(** X8: after [OnDestroy] the closure that [OnCreate] registered for the
    next frame finds no controller: if the engine still calls it, it does
    not show the window and changes nothing. *)
Theorem next_frame_callback_is_inert_after_OnDestroy
    (h : Host) (w w' : FlutterWindow) (t : Trace) :
  OnDestroy h w = (t, Ok (tt, w')) ->
  invoke_callback ShowWhenControllerAlive w' = ([], Ok (tt, w')).
Proof.
  rewrite OnDestroy_eq. intros Hrun. injection Hrun as _ <-.
  rewrite invoke_callback_eq. reflexivity.
Qed.

(** The callback shows the created window, and no longer does once the
    window has been destroyed. *)
Lemma next_frame_callback_is_inert_after_OnDestroy_witness :
  trace_of (invoke_callback ShowWhenControllerAlive created_window)
    = [Win32Window_Show] /\
  OnDestroy sample_host created_window
    = ([WTSUnRegisterSessionNotification 42; Win32Window_OnDestroy],
       Ok (tt, destroyed_window)) /\
  invoke_callback ShowWhenControllerAlive destroyed_window
    = ([], Ok (tt, destroyed_window)).
Proof.
  split; [reflexivity|]. split; [reflexivity|].
  apply (next_frame_callback_is_inert_after_OnDestroy
           sample_host created_window destroyed_window
           [WTSUnRegisterSessionNotification 42; Win32Window_OnDestroy]).
  reflexivity.
Defined.

(** ** [MessageHandler] *)

(** X9: the engine sees every message first: with a controller in place,
    a message the engine answers is returned with the engine's result and
    nothing else happens: no font reload, no power or session
    notification, no call of the base class, no change to the window. *)
Theorem MessageHandler_engine_result_wins
    (h : Host) (hwnd : HWND) (message : UINT) (wparam : WPARAM)
    (lparam : LPARAM) (w : FlutterWindow) (c : FlutterViewController)
    (handled : LRESULT) :
  flutter_controller_ w = Some c ->
  top_level_proc h hwnd message wparam lparam = Some handled ->
  MessageHandler h hwnd message wparam lparam w
    = ([HandleTopLevelWindowProc hwnd message wparam lparam],
       Ok (handled, w)).
Proof.
  intros Hc Htop. rewrite MessageHandler_eq, Hc, Htop. reflexivity.
Qed.

(** A suspend broadcast that the engine consumes is not forwarded. *)
Lemma MessageHandler_engine_result_wins_witness :
  MessageHandler consuming_host 42 WM_POWERBROADCAST PBT_APMSUSPEND 0
                 created_window
    = ([HandleTopLevelWindowProc 42 WM_POWERBROADCAST PBT_APMSUSPEND 0],
       Ok (1, created_window)).
Proof.
  apply (MessageHandler_engine_result_wins
           consuming_host 42 WM_POWERBROADCAST PBT_APMSUSPEND 0 created_window
           (mkController 1280 720 (MkDartProject "data")
                         (Some sample_engine) (Some sample_view)) 1);
    reflexivity.
Defined.

(** X10: [MessageHandler] dereferences a null pointer in exactly one
    situation: the message is [WM_FONTCHANGE] and either there is no
    controller, or there is one whose engine is null and the message was
    not answered by [HandleTopLevelWindowProc]. *)
Theorem MessageHandler_faults_iff
    (h : Host) (hwnd : HWND) (message : UINT) (wparam : WPARAM)
    (lparam : LPARAM) (w : FlutterWindow) :
  snd (MessageHandler h hwnd message wparam lparam w) = NullDereference <->
  message = WM_FONTCHANGE /\
  (flutter_controller_ w = None \/
   exists c, flutter_controller_ w = Some c /\
             top_level_proc h hwnd message wparam lparam = None /\
             engine c = None).
Proof.
  rewrite MessageHandler_eq. cbv zeta.
  destruct (flutter_controller_ w) as [c|];
    [destruct (top_level_proc h hwnd message wparam lparam) as [handled|]|];
    (destruct (Z.eqb_spec message WM_FONTCHANGE) as [Hfont|Hfont];
     [|destruct (message =? WM_POWERBROADCAST);
       [|destruct (message =? WM_WTSSESSION_CHANGE)]]);
    try destruct (engine c) as [e|] eqn:He;
    cbn [snd]; split; intros H;
    try discriminate;
    try (match type of H with
         | _ /\ _ =>
             destruct H as [Hm [Hn | (c' & Hc' & Htop & He')]]; congruence
         end).
  - split; [exact Hfont|]. right. exists c. auto.
  - split; [exact Hfont|]. left. reflexivity.
Qed.

Lemma MessageHandler_faults_iff_witness :
  snd (MessageHandler sample_host 42 WM_FONTCHANGE 0 0 destroyed_window)
    = NullDereference /\
  snd (MessageHandler sample_host 42 WM_FONTCHANGE 0 0 created_window)
    <> NullDereference.
Proof.
  split.
  - apply (proj2 (MessageHandler_faults_iff
                    sample_host 42 WM_FONTCHANGE 0 0 destroyed_window)).
    split; [reflexivity|]. left. reflexivity.
  - intros Hfault.
    destruct (proj1 (MessageHandler_faults_iff
                       sample_host 42 WM_FONTCHANGE 0 0 created_window)
                    Hfault) as (_ & [Hnone | (c & Hc & _ & He)]).
    + discriminate Hnone.
    + injection Hc as <-. discriminate He.
Defined.







(** X14: once [OnDestroy] has run, every message other than
    [WM_FONTCHANGE] goes straight to the base class: the engine is not
    consulted and no notification is sent, whatever the message. *)
Theorem MessageHandler_after_OnDestroy_only_calls_base
    (h : Host) (w w' : FlutterWindow) (t : Trace)
    (h' : Host) (hwnd : HWND) (message : UINT) (wparam : WPARAM)
    (lparam : LPARAM) :
  OnDestroy h w = (t, Ok (tt, w')) ->
  message <> WM_FONTCHANGE ->
  MessageHandler h' hwnd message wparam lparam w'
    = ([Win32Window_MessageHandler hwnd message wparam lparam],
       Ok (base_MessageHandler h' hwnd message wparam lparam, w')).
Proof.
  rewrite OnDestroy_eq. intros Hrun Hfont. injection Hrun as _ <-.
  rewrite MessageHandler_eq. cbn [flutter_controller_ power_monitor_].
  cbv zeta. apply Z.eqb_neq in Hfont. rewrite Hfont.
  destruct (message =? WM_POWERBROADCAST);
    [|destruct (message =? WM_WTSSESSION_CHANGE)]; reflexivity.
Qed.

Lemma MessageHandler_after_OnDestroy_only_calls_base_witness :
  MessageHandler sample_host 42 WM_POWERBROADCAST PBT_APMSUSPEND 0
                 destroyed_window
    = ([Win32Window_MessageHandler 42 WM_POWERBROADCAST PBT_APMSUSPEND 0],
       Ok (0, destroyed_window)).
Proof.
  apply (MessageHandler_after_OnDestroy_only_calls_base
           sample_host created_window destroyed_window
           [WTSUnRegisterSessionNotification 42; Win32Window_OnDestroy]
           sample_host 42 WM_POWERBROADCAST PBT_APMSUSPEND 0).
  - reflexivity.
  - unfold WM_POWERBROADCAST, WM_FONTCHANGE. lia.
Defined.

(** X15: a message that is none of [WM_FONTCHANGE], [WM_POWERBROADCAST]
    and [WM_WTSSESSION_CHANGE], and that the engine does not answer, is
    handed unchanged to the base class, whose result is returned; the only
    other effect is the engine's look at it when there is a controller. *)
Theorem MessageHandler_passes_other_messages_to_base
    (h : Host) (hwnd : HWND) (message : UINT) (wparam : WPARAM)
    (lparam : LPARAM) (w : FlutterWindow) :
  message <> WM_FONTCHANGE ->
  message <> WM_POWERBROADCAST ->
  message <> WM_WTSSESSION_CHANGE ->
  flutter_controller_ w = None \/
  top_level_proc h hwnd message wparam lparam = None ->
  MessageHandler h hwnd message wparam lparam w
    = (match flutter_controller_ w with
       | Some _ => [HandleTopLevelWindowProc hwnd message wparam lparam]
       | None => []
       end ++ [Win32Window_MessageHandler hwnd message wparam lparam],
       Ok (base_MessageHandler h hwnd message wparam lparam, w)).
Proof.
  intros Hfont Hpower Hsession Hunanswered.
  rewrite MessageHandler_eq. cbv zeta.
  apply Z.eqb_neq in Hfont, Hpower, Hsession.
  rewrite Hfont, Hpower, Hsession.
  destruct (flutter_controller_ w) as [c|].
  - destruct Hunanswered as [Hnone | Htop]; [discriminate|].
    rewrite Htop. reflexivity.
  - reflexivity.
Qed.

(** [WM_PAINT] (15) on the created window. *)
Lemma MessageHandler_passes_other_messages_to_base_witness :
  MessageHandler sample_host 42 15 0 0 created_window
    = ([HandleTopLevelWindowProc 42 15 0 0;
        Win32Window_MessageHandler 42 15 0 0],
       Ok (0, created_window)).
Proof.
  apply (MessageHandler_passes_other_messages_to_base
           sample_host 42 15 0 0 created_window);
    try (unfold WM_FONTCHANGE, WM_POWERBROADCAST, WM_WTSSESSION_CHANGE; lia).
  right. reflexivity.
Defined.


